(** * Custom mosaic tool: the query models of [apps/custom_mosaic_tool/models.py]

    A shallow embedding of [Query.get_fields_with_labels] and of the class
    method [Query.get_or_create_query_from_post], together with the part of
    the object-relational layer the two rely on: the managers' [get], the
    model constructor and [save] under the [unique_together] constraint of
    [Query.Meta]. *)

From stdpp Require Import base strings list gmap fin_maps.

(** ** Python values, dictionaries and exceptions *)

(** Submitted form values are strings; an attribute of a model instance is
    a string, [None], or for a ForeignKey the instance it refers to, given
    by its class and key. *)
Inductive value : Type :=
  | VNone
  | VStr (s : string)
  | VInstance (cls : string) (key : nat).

#[global] Instance value_eq_dec : EqDecision value.
Proof. solve_decision. Defined.

#[global] Instance VStr_inj : Inj (=) (=) VStr.
Proof. by intros s1 s2 [= ->]. Qed.

(** A [dict] with string keys. *)
Abbreviation dict := (gmap string value).

(** The model classes whose managers the module calls. *)
Inductive model_class : Type :=
  | SatelliteModel
  | AreaModel
  | QueryModel.

#[global] Instance model_class_eq_dec : EqDecision model_class.
Proof. solve_decision. Defined.

Inductive exn : Type :=
  | KeyError (key : string)
  | IndexError
  | AttributeError (name : string)
  | DoesNotExist (m : model_class)
  | MultipleObjectsReturned (m : model_class)
  | IntegrityError.

#[global] Instance exn_eq_dec : EqDecision exn.
Proof. solve_decision. Defined.

(** The outcome of evaluating an expression: a value, or a raised exception. *)
Inductive result (A : Type) : Type :=
  | Ok (a : A)
  | Raise (e : exn).
Arguments Ok {A} a.
Arguments Raise {A} e.

(** ** Rows of [apps.dc_algorithm.models] *)

Record Satellite : Type := { satellite_id : string; product_prefix : string }.
Record Area : Type := { area_id : string }.

(** A stored query-family row (a [CustomMosaicTask]): the primary key the
    store assigned and the value of every column. Column values are compared
    as they are written, without the conversions a typed column applies, and
    the primary key is kept apart from the submitted columns. *)
Record task : Type := { pk : nat; attrs : dict }.

#[global] Instance task_eq_dec : EqDecision task.
Proof. solve_decision. Defined.

(** [Manager.get]: the single row passing the filter; [DoesNotExist] when
    there is none and [MultipleObjectsReturned] when there are several. *)
Definition objects_get {R : Type} (m : model_class) (P : R → Prop)
    `{!∀ r, Decision (P r)} (rows : list R) : result R :=
  match filter P rows with
  | [] => Raise (DoesNotExist m)
  | [r] => Ok r
  | _ :: _ :: _ => Raise (MultipleObjectsReturned m)
  end.

(** [Satellite.objects.get(satellite_id=v)] and [Area.objects.get(area_id=v)]. *)
Definition Satellite_objects_get (rows : list Satellite) (v : value) : result Satellite :=
  objects_get SatelliteModel (λ s, VStr (satellite_id s) = v) rows.

Definition Area_objects_get (rows : list Area) (v : value) : result Area :=
  objects_get AreaModel (λ a, VStr (area_id a) = v) rows.

(** A row passes the filter of keyword arguments [kwargs] when every keyword
    equals its column. *)
Definition matches (kwargs : dict) (t : task) : Prop :=
  map_Forall (λ k v, attrs t !! k = Some v) kwargs.

#[global] Instance matches_dec kwargs t : Decision (matches kwargs t).
Proof. unfold matches. apply _. Defined.

Definition cls_objects_get (rows : list task) (kwargs : dict) : result task :=
  objects_get QueryModel (matches kwargs) rows.

(** [Query.Meta.unique_together]. *)
Definition unique_together : list string :=
  [ "platform"; "product"; "time_start"; "time_end"; "latitude_max"; "latitude_min";
    "longitude_max"; "longitude_min"; "title"; "description"; "query_type";
    "animated_product"; "compositor" ]%string.

(** The thirteen values the constraint compares. *)
Definition unique_key (a : dict) : list (option value) :=
  (λ k, a !! k) <$> unique_together.

(** The ForeignKey columns of lines 61 to 63. They are declared without
    [null=True]: the store holds no row in which one of them is [None]. *)
Definition foreign_keys : list string :=
  [ "query_type"; "animated_product"; "compositor" ]%string.

Definition lacks_foreign_key (a : dict) : Prop :=
  Exists (λ k, a !! k = None ∨ a !! k = Some VNone) foreign_keys.

(** What makes the store refuse the insert of a row with columns [a]: a
    ForeignKey left empty, or a stored row with the same [unique_together]
    values. *)
Definition insert_refused (rows : list task) (a : dict) : Prop :=
  lacks_foreign_key a ∨ Exists (λ t, unique_key (attrs t) = unique_key a) rows.

(** ** [Query.get_fields_with_labels] *)

Definition getattr (self : task) (name : string) : result value :=
  match attrs self !! name with
  | Some v => Ok v
  | None => Raise (AttributeError name)
  end.

(** The generator run to exhaustion from position [idx] of the enumeration:
    the items it yields, and the exception that ended it if one did. *)
Fixpoint get_fields_with_labels_from (self : task) (idx : nat) (labels : list value)
    (field_names : list string) : list (list value) * option exn :=
  match labels with
  | [] => ([], None)
  | label :: rest =>
      match field_names !! idx with
      | None => ([], Some IndexError)
      | Some name =>
          match getattr self name with
          | Raise e => ([], Some e)
          | Ok v =>
              let '(items, stop) :=
                get_fields_with_labels_from self (S idx) rest field_names in
              ([label; v] :: items, stop)
          end
      end
  end.

Definition get_fields_with_labels (self : task) (labels : list value)
    (field_names : list string) : list (list value) * option exn :=
  get_fields_with_labels_from self 0 labels field_names.

(** ** The evaluation monad

    The class method works on two pieces of mutable state: the dictionary
    object the caller passed (which [query_data] aliases until it is rebound)
    and the table of stored rows. *)
Record world : Type := { form_data : dict; objects : list task }.

Definition M (A : Type) : Type := world → world * result A.

#[global] Instance M_ret : MRet M := λ A a w, (w, Ok a).
#[global] Instance M_bind : MBind M := λ A B f m w,
  match m w with
  | (w', Ok a) => f a w'
  | (w', Raise e) => (w', Raise e)
  end.

Definition lift {A : Type} (r : result A) : M A := λ w, (w, r).

(** [try: body except <caught>: handler]. *)
Definition try_except {A : Type} (body : M A) (caught : exn → bool) (handler : M A) : M A :=
  λ w, match body w with
       | (w', Ok a) => (w', Ok a)
       | (w', Raise e) => if caught e then handler w' else (w', Raise e)
       end.

(** [key not in form_data], [form_data[key]] and [form_data[key] = v]. *)
Definition not_in (key : string) : M bool :=
  λ w, (w, Ok (bool_decide (form_data w !! key = None))).

Definition getitem (key : string) : M value :=
  λ w, match form_data w !! key with
       | Some v => (w, Ok v)
       | None => (w, Raise (KeyError key))
       end.

Definition setitem (key : string) (v : value) : M unit :=
  λ w, ({| form_data := <[key := v]> (form_data w); objects := objects w |}, Ok ()).

(** [a or b], evaluating [b] only when [a] is false. *)
Definition or_else (a b : M bool) : M bool :=
  x ← a; if x : bool then mret true else b.

(** [{key: d[key] for key in keys if key in d}]. *)
Definition dict_comprehension (keys : list string) (d : dict) : dict :=
  foldl (λ acc key, match d !! key with
                    | Some v => <[key := v]> acc
                    | None => acc
                    end) ∅ keys.

Section Query.

(** [[field.name for field in cls._meta.get_fields()]]: the columns of the
    concrete class, most of which the base classes declare. *)
Variable valid_query_fields : list string.

(** What [cls()] holds in each column before any keyword is applied. *)
Variable field_defaults : dict.

(** The two lookup tables, which the class method only reads. *)
Variable Satellite_objects : list Satellite.
Variable Area_objects : list Area.

(** The constructor [cls] applied to keyword arguments: the keywords over
    the defaults. *)
Definition cls_init (kwargs : dict) : dict := kwargs ∪ field_defaults.

(** The key of the next inserted row. *)
Definition next_pk (rows : list task) : nat := S (max_list (pk <$> rows)).

(** [query.save()] of a fresh instance: an insert, which the store refuses
    with an integrity error when a ForeignKey of lines 61 to 63 is empty or
    when a stored row has the same [unique_together] values. The columns of
    the base classes, their types and their constraints are declared outside
    this module and are left out, and so is what [save] does with a
    submitted primary key: the properties below that depend on either say
    so. *)
Definition save (a : dict) : M task :=
  λ w, if decide (insert_refused (objects w) a)
       then (w, Raise IntegrityError)
       else let query := {| pk := next_pk (objects w); attrs := a |} in
            ({| form_data := form_data w; objects := objects w ++ [query] |}, Ok query).

(** The clause [except cls.DoesNotExist]. *)
Definition is_cls_DoesNotExist (e : exn) : bool :=
  bool_decide (e = DoesNotExist QueryModel).

(** Lines 89 to 96: [query_data] is the caller's dictionary itself. *)
Definition normalize : M unit :=
  platform ← getitem "platform";
  satellite ← lift (Satellite_objects_get Satellite_objects platform);
  area_key ← getitem "area_id";
  area ← lift (Area_objects_get Area_objects area_key);
  setitem "product" (VStr (product_prefix satellite +:+ area_id area));;
  title ← (use_default ← or_else (not_in "title")
                                  (t ← getitem "title"; mret (bool_decide (t = VStr "")));
           if use_default : bool then mret (VStr "Custom Mosaic Query") else getitem "title");
  setitem "title" title;;
  description ← (use_default ← or_else (not_in "description")
                                        (d ← getitem "description"; mret (bool_decide (d = VStr "")));
                 if use_default : bool then mret (VStr "None") else getitem "description");
  setitem "description" description.

(** Lines 98 and 99: [query_data] is rebound to a new dictionary. *)
Definition filter_fields : M dict :=
  λ w, (w, Ok (dict_comprehension valid_query_fields (form_data w))).

(** Lines 101 to 107. *)
Definition get_or_create (query_data : dict) : M (task * bool) :=
  try_except
    (query ← (λ w, (w, cls_objects_get (objects w) query_data)); mret (query, false))
    is_cls_DoesNotExist
    (query ← save (cls_init query_data); mret (query, true)).

Definition get_or_create_query_from_post : M (task * bool) :=
  normalize;;
  query_data ← filter_fields;
  get_or_create query_data.

(** The value of [query_data] when line 101 is reached: the keyword
    arguments of both the lookup and the constructor. *)
Definition query_data_at_lookup (w : world) : result dict :=
  snd ((normalize;; filter_fields) w).

(** The two lookups of lines 90 to 92 in evaluation order, as a function of
    the submitted dictionary alone. *)
Definition lookups (fd : dict) : result (Satellite * Area) :=
  match fd !! "platform" with
  | None => Raise (KeyError "platform")
  | Some p =>
      match Satellite_objects_get Satellite_objects p with
      | Raise e => Raise e
      | Ok s =>
          match fd !! "area_id" with
          | None => Raise (KeyError "area_id")
          | Some k =>
              match Area_objects_get Area_objects k with
              | Raise e => Raise e
              | Ok a => Ok (s, a)
              end
          end
      end
  end.

(** Lines 101 to 107 as a function of the table alone: the table
    afterwards and the outcome. *)
Definition get_or_create_rows (query_data : dict) (rows : list task)
    : list task * result (task * bool) :=
  match filter (matches query_data) rows with
  | [] =>
      if decide (insert_refused rows (cls_init query_data))
      then (rows, Raise IntegrityError)
      else let query := {| pk := next_pk rows; attrs := cls_init query_data |} in
           (rows ++ [query], Ok (query, true))
  | [query] => (rows, Ok (query, false))
  | _ :: _ :: _ => (rows, Raise (MultipleObjectsReturned QueryModel))
  end.

End Query.

(** ** Specification-side definitions *)

(** The value a defaulted key ends with: the submitted one unless it is
    missing or the empty string. *)
Definition or_default (dflt : value) (submitted : option value) : value :=
  match submitted with
  | None => dflt
  | Some v => if decide (v = VStr "") then dflt else v
  end.

(** The caller's dictionary once lines 89 to 96 have run. *)
Definition normalized (s : Satellite) (a : Area) (fd : dict) : dict :=
  <["description" := or_default (VStr "None") (fd !! "description")]>
    (<["title" := or_default (VStr "Custom Mosaic Query") (fd !! "title")]>
       (<["product" := VStr (product_prefix s +:+ area_id a)]> fd)).

(** The restriction of a mapping to the declared field names. *)
Definition restrict_to_fields (fields : list string) (d : dict) : dict :=
  filter (λ kv, kv.1 ∈ fields) d.

(** No two stored rows hold the same thirteen [unique_together] values. *)
Definition unique_together_holds (rows : list task) : Prop :=
  ∀ i j ti tj,
    rows !! i = Some ti → rows !! j = Some tj →
    unique_key (attrs ti) = unique_key (attrs tj) → i = j.

(** The tables that calls of the class method build from an empty one,
    whatever is submitted and whatever the lookup tables hold at each call. *)
Inductive reachable (fields : list string) (defaults : dict) : list task → Prop :=
  | reachable_empty : reachable fields defaults []
  | reachable_call sats areas fd rows :
      reachable fields defaults rows →
      reachable fields defaults
        (objects (fst (get_or_create_query_from_post fields defaults sats areas
                         {| form_data := fd; objects := rows |}))).

(** ** A small installation, for concrete runs *)

Definition ex_fields : list string :=
  unique_together ++ [ "area_id"; "satellite_list"; "animation_path" ]%string.

Definition ex_defaults : dict :=
  {[ "satellite_list" := VStr ""; "animation_path" := VStr "None";
     "time_start" := VNone; "time_end" := VNone ]}.

Definition LS7 : Satellite := {| satellite_id := "LS7"; product_prefix := "ls7_" |}.
Definition LS8 : Satellite := {| satellite_id := "LS8"; product_prefix := "ls8_" |}.
Definition NT : Area := {| area_id := "NT" |}.
Definition QLD : Area := {| area_id := "QLD" |}.

Definition ex_satellites : list Satellite := [ LS7; LS8 ].
Definition ex_areas : list Area := [ NT; QLD ].

(** A submission with neither title nor description and one key that is not
    a column. *)
Definition ex_form_data : dict :=
  {[ "platform" := VStr "LS7"; "area_id" := VStr "NT"; "csrfmiddlewaretoken" := VStr "x" ]}.

(** What the lookup and the constructor receive for [ex_form_data]. *)
Definition ex_query_data : dict :=
  {[ "platform" := VStr "LS7"; "area_id" := VStr "NT"; "product" := VStr "ls7_NT";
     "title" := VStr "Custom Mosaic Query"; "description" := VStr "None" ]}.

(** A row with just those columns over the defaults. *)
Definition ex_task : task := {| pk := 1; attrs := ex_query_data ∪ ex_defaults |}.

(** A row with another title, and a row that differs from [ex_task] in a
    column the submission does not name. *)
Definition ex_other_task : task :=
  {| pk := 1; attrs := <["title" := VStr "Dry season"]> (ex_query_data ∪ ex_defaults) |}.
Definition ex_twin_task : task :=
  {| pk := 2; attrs := <["time_start" := VStr "2015-01-01"]> (ex_query_data ∪ ex_defaults) |}.

(** A submission for a platform that is not in [ex_satellites]. *)
Definition ex_form_data_unknown : dict :=
  {[ "platform" := VStr "LS5"; "area_id" := VStr "NT" ]}.

(** A submission that names every field of [unique_together] but the three
    derived ones, the row a call stores for it, and a row that differs from
    that one in the compositor alone. *)
Definition ex_full_form_data : dict :=
  {[ "platform" := VStr "LS7"; "area_id" := VStr "NT";
     "time_start" := VStr "2015-01-01"; "time_end" := VStr "2015-12-31";
     "latitude_max" := VStr "-12.0"; "latitude_min" := VStr "-13.0";
     "longitude_max" := VStr "131.0"; "longitude_min" := VStr "130.0";
     "query_type" := VInstance "ResultType" 1;
     "animated_product" := VInstance "AnimationType" 1;
     "compositor" := VInstance "Compositor" 1 ]}.
Definition ex_full_task : task :=
  {| pk := 1;
     attrs := dict_comprehension ex_fields (normalized LS7 NT ex_full_form_data)
              ∪ ex_defaults |}.
Definition ex_median_task : task :=
  {| pk := 2;
     attrs := <["compositor" := VInstance "Compositor" 2]> (attrs ex_full_task) |}.

(** The row stored for that submission with a title, the submission with
    keys that are not columns, and the worlds the runs below start from. *)
Definition ex_titled_task : task :=
  {| pk := 1; attrs := <["title" := VStr "Dry season"]> (attrs ex_full_task) |}.
Definition ex_full_form_data_extra : dict :=
  <["csrfmiddlewaretoken" := VStr "y"]> (<["page" := VStr "2"]> ex_full_form_data).
Definition ex_full_world (rows : list task) : world :=
  {| form_data := ex_full_form_data; objects := rows |}.

Definition ex_world (rows : list task) : world :=
  {| form_data := ex_form_data; objects := rows |}.

Abbreviation ex_call :=
  (get_or_create_query_from_post ex_fields ex_defaults ex_satellites ex_areas).

(** Closes a decidable proposition by evaluating its decision procedure. *)
Ltac decided := apply (bool_decide_unpack _); vm_compute; exact I.

(** ** Stepping through the monad *)

Lemma bind_run {A B : Type} (m : M A) (f : A → M B) (w : world) :
  (m ≫= f) w =
  match m w with
  | (w', Ok a) => f a w'
  | (w', Raise e) => (w', Raise e)
  end.
Proof. reflexivity. Qed.

Lemma bind_getitem {B : Type} (key : string) (f : value → M B) (w : world) :
  (getitem key ≫= f) w =
  match form_data w !! key with
  | Some v => f v w
  | None => (w, Raise (KeyError key))
  end.
Proof. rewrite bind_run. unfold getitem. by destruct (form_data w !! key). Qed.

Lemma bind_lift {A B : Type} (r : result A) (f : A → M B) (w : world) :
  (lift r ≫= f) w =
  match r with
  | Ok a => f a w
  | Raise e => (w, Raise e)
  end.
Proof. rewrite bind_run. unfold lift. by destruct r. Qed.

Lemma bind_setitem {B : Type} (key : string) (v : value) (f : unit → M B) (w : world) :
  (setitem key v ≫= f) w =
  f () {| form_data := <[key := v]> (form_data w); objects := objects w |}.
Proof. reflexivity. Qed.

Lemma bind_value {A B : Type} (m : M A) (f : A → M B) (w : world) (a : A) :
  m w = (w, Ok a) → (m ≫= f) w = f a w.
Proof. intros Hm. by rewrite bind_run, Hm. Qed.

(** The conditional expression of lines 93 to 96 reads the dictionary and
    leaves it as it is. *)
Lemma conditional_run (key : string) (dflt : value) (w : world) :
  (use_default ← or_else (not_in key)
                          (t ← getitem key; mret (bool_decide (t = VStr "")));
   if use_default : bool then mret dflt else getitem key) w
  = (w, Ok (or_default dflt (form_data w !! key))).
Proof.
  unfold or_else, not_in, or_default.
  rewrite !bind_run.
  destruct (form_data w !! key) as [t|] eqn:Hkey; cbn [bool_decide decide_rel].
  - rewrite bool_decide_eq_false_2 by done.
    rewrite bind_getitem, Hkey. unfold mret, M_ret.
    destruct (decide (t = VStr "")) as [->|Hne].
    + by rewrite bool_decide_eq_true_2.
    + rewrite bool_decide_eq_false_2 by done. unfold getitem. by rewrite Hkey.
  - by rewrite bool_decide_eq_true_2.
Qed.

(** ** The managers *)

Lemma filter_nil_iff {R : Type} (P : R → Prop) `{!∀ r, Decision (P r)} (rows : list R) :
  filter P rows = [] ↔ Forall (λ r, ¬ P r) rows.
Proof.
  split.
  - intros Hnil. apply Forall_forall. intros r Hin HP.
    by apply (filter_nil_not_elem_of P rows r).
  - induction 1 as [|r rows Hr _ IH]; [done|]. by rewrite filter_cons_False.
Qed.

Section Managers.
Context {R : Type} (m : model_class) (P : R → Prop) `{!∀ r, Decision (P r)}.

Lemma objects_get_none (rows : list R) :
  Forall (λ r, ¬ P r) rows → objects_get m P rows = Raise (DoesNotExist m).
Proof.
  intros Hnone. apply (filter_nil_iff P) in Hnone.
  unfold objects_get. by rewrite Hnone.
Qed.

End Managers.

(** A key column selects at most one row. *)
Lemma filter_key_at_most_one {R K : Type} `{EqDecision K} (key : R → K) (c : K) (rows : list R) :
  NoDup (key <$> rows) → length (filter (λ r, key r = c) rows) ≤ 1.
Proof.
  induction rows as [|r rows IH]; [cbn; lia|].
  rewrite fmap_cons, NoDup_cons. intros [Hr Hrows].
  destruct (decide (key r = c)) as [Hc|Hc].
  - rewrite filter_cons_True by done.
    replace (filter (λ r0, key r0 = c) rows) with (@nil R); [cbn; lia|].
    symmetry. apply (filter_nil_iff (λ r0, key r0 = c)), Forall_forall.
    intros r' Hin Hkey.
    apply Hr. rewrite Hc, <-Hkey. by apply list_elem_of_fmap_2.
  - rewrite filter_cons_False by done. by apply IH.
Qed.

(** ** The dictionary comprehension *)

Lemma dict_comprehension_lookup (keys : list string) (d : dict) (k : string) :
  dict_comprehension keys d !! k = if decide (k ∈ keys) then d !! k else None.
Proof.
  unfold dict_comprehension.
  assert (∀ acc : dict,
    foldl (λ acc key, match d !! key with
                      | Some v => <[key := v]> acc
                      | None => acc
                      end) acc keys !! k
    = if decide (k ∈ keys) then
        match d !! k with Some v => Some v | None => acc !! k end
      else acc !! k) as Hgen.
  { induction keys as [|key keys IH]; intros acc; [done|].
    cbn [foldl]. rewrite IH.
    destruct (decide (k = key)) as [->|Hne].
    - rewrite (decide_True (P := key ∈ key :: keys)) by left.
      destruct (d !! key) as [v|] eqn:Hd.
      + rewrite lookup_insert_eq. by case_decide.
      + by case_decide.
    - destruct (decide (k ∈ keys)) as [Hin|Hnin].
      + rewrite (decide_True (P := k ∈ key :: keys)) by by right.
        destruct (d !! k); [done|].
        destruct (d !! key); [|done]. by rewrite lookup_insert_ne.
      + rewrite (decide_False (P := k ∈ key :: keys))
          by (by apply not_elem_of_cons).
        destruct (d !! key); [|done]. by rewrite lookup_insert_ne.
  }
  rewrite Hgen, lookup_empty. case_decide; [|done]. by destruct (d !! k).
Qed.

Lemma restrict_to_fields_lookup (fields : list string) (d : dict) (k : string) :
  restrict_to_fields fields d !! k = if decide (k ∈ fields) then d !! k else None.
Proof.
  unfold restrict_to_fields. rewrite map_lookup_filter.
  destruct (d !! k) as [v|]; cbn; [|by case_decide].
  destruct (decide (k ∈ fields)) as [Hin|Hnin].
  - by rewrite option_guard_True.
  - by rewrite option_guard_False.
Qed.

Lemma dict_comprehension_restrict (fields : list string) (d : dict) :
  dict_comprehension fields d = restrict_to_fields fields d.
Proof.
  apply map_eq. intros k.
  by rewrite dict_comprehension_lookup, restrict_to_fields_lookup.
Qed.

(** ** Closed forms of the class method *)

Lemma or_default_idem (dflt : value) (o : option value) :
  dflt ≠ VStr "" → or_default dflt (Some (or_default dflt o)) = or_default dflt o.
Proof.
  intros Hd. unfold or_default.
  destruct o as [v|]; repeat case_decide; congruence.
Qed.

Lemma normalized_lookup (s : Satellite) (a : Area) (fd : dict) (k : string) :
  normalized s a fd !! k =
  if decide (k = "description") then Some (or_default (VStr "None") (fd !! "description"))
  else if decide (k = "title") then Some (or_default (VStr "Custom Mosaic Query") (fd !! "title"))
  else if decide (k = "product") then Some (VStr (product_prefix s +:+ area_id a))
  else fd !! k.
Proof.
  unfold normalized. rewrite !lookup_insert.
  repeat case_decide; congruence.
Qed.

Lemma normalized_idem (s : Satellite) (a : Area) (fd : dict) :
  normalized s a (normalized s a fd) = normalized s a fd.
Proof.
  apply map_eq. intros k. rewrite !normalized_lookup.
  cbn [decide]. repeat case_decide; try done; subst.
  - by rewrite or_default_idem.
  - by rewrite or_default_idem.
Qed.

Section Closed_forms.
Variable valid_query_fields : list string.
Variable field_defaults : dict.
Variable Satellite_objects : list Satellite.
Variable Area_objects : list Area.

Lemma lookups_Ok (fd : dict) (s : Satellite) (a : Area) :
  lookups Satellite_objects Area_objects fd = Ok (s, a) ↔
  ∃ p k, fd !! "platform" = Some p ∧ Satellite_objects_get Satellite_objects p = Ok s ∧
         fd !! "area_id" = Some k ∧ Area_objects_get Area_objects k = Ok a.
Proof.
  unfold lookups. split.
  - destruct (fd !! "platform") as [p|]; [|done].
    destruct (Satellite_objects_get Satellite_objects p) as [s'|] eqn:Hs; [|done].
    destruct (fd !! "area_id") as [k|]; [|done].
    destruct (Area_objects_get Area_objects k) as [a'|] eqn:Ha; [|done].
    intros [= -> ->]. by exists p, k.
  - intros (p & k & -> & -> & -> & ->). done.
Qed.

Lemma lookups_normalized (s : Satellite) (a : Area) (fd : dict) :
  lookups Satellite_objects Area_objects (normalized s a fd)
  = lookups Satellite_objects Area_objects fd.
Proof. unfold lookups. by rewrite !normalized_lookup. Qed.

Lemma normalize_run (w : world) :
  normalize Satellite_objects Area_objects w =
  match lookups Satellite_objects Area_objects (form_data w) with
  | Ok (s, a) =>
      ({| form_data := normalized s a (form_data w); objects := objects w |}, Ok ())
  | Raise e => (w, Raise e)
  end.
Proof.
  unfold normalize, lookups, normalized.
  rewrite bind_getitem.
  destruct (form_data w !! "platform") as [p|]; [|done].
  rewrite bind_lift.
  destruct (Satellite_objects_get Satellite_objects p) as [s|]; [|done].
  rewrite bind_getitem.
  destruct (form_data w !! "area_id") as [k|]; [|done].
  rewrite bind_lift.
  destruct (Area_objects_get Area_objects k) as [a|]; [|done].
  rewrite bind_setitem.
  erewrite bind_value by apply conditional_run.
  rewrite bind_setitem.
  erewrite bind_value by apply conditional_run.
  cbn [form_data objects].
  rewrite (lookup_insert_ne _ "product" "title") by done.
  rewrite !(lookup_insert_ne _ _ "description") by done.
  reflexivity.
Qed.

Lemma get_or_create_run (query_data : dict) (w : world) :
  get_or_create field_defaults query_data w =
  ({| form_data := form_data w;
      objects := (get_or_create_rows field_defaults query_data (objects w)).1 |},
   (get_or_create_rows field_defaults query_data (objects w)).2).
Proof.
  destruct w as [fd rows].
  unfold get_or_create, get_or_create_rows, try_except, cls_objects_get, objects_get.
  rewrite bind_run. cbn [form_data objects].
  destruct (filter (matches query_data) rows) as [|query [|]]; [|done..].
  cbn [is_cls_DoesNotExist]. rewrite bind_run. unfold save. cbn [form_data objects].
  by case_decide.
Qed.

Lemma query_data_at_lookup_run (w : world) :
  query_data_at_lookup valid_query_fields Satellite_objects Area_objects w =
  match lookups Satellite_objects Area_objects (form_data w) with
  | Ok (s, a) => Ok (dict_comprehension valid_query_fields (normalized s a (form_data w)))
  | Raise e => Raise e
  end.
Proof.
  unfold query_data_at_lookup. rewrite bind_run, normalize_run.
  by destruct (lookups _ _ _) as [[s a]|].
Qed.

Lemma call_run (w : world) :
  get_or_create_query_from_post valid_query_fields field_defaults
    Satellite_objects Area_objects w =
  match lookups Satellite_objects Area_objects (form_data w) with
  | Ok (s, a) =>
      let query_data :=
        dict_comprehension valid_query_fields (normalized s a (form_data w)) in
      ({| form_data := normalized s a (form_data w);
          objects := (get_or_create_rows field_defaults query_data (objects w)).1 |},
       (get_or_create_rows field_defaults query_data (objects w)).2)
  | Raise e => (w, Raise e)
  end.
Proof.
  unfold get_or_create_query_from_post. rewrite bind_run, normalize_run.
  destruct (lookups _ _ _) as [[s a]|]; [|done].
  rewrite bind_run. unfold filter_fields. by rewrite get_or_create_run.
Qed.

End Closed_forms.

(** ** The uniqueness constraint *)

Lemma unique_together_holds_NoDup (rows : list task) :
  unique_together_holds rows ↔ NoDup ((λ t, unique_key (attrs t)) <$> rows).
Proof.
  rewrite NoDup_alt. unfold unique_together_holds. split.
  - intros Hrows i j key Hi Hj. rewrite list_lookup_fmap in Hi, Hj.
    destruct (rows !! i) as [ti|] eqn:Hti; [|done].
    destruct (rows !! j) as [tj|] eqn:Htj; [|done].
    change (Some (unique_key (attrs ti)) = Some key) in Hi.
    change (Some (unique_key (attrs tj)) = Some key) in Hj.
    apply (Hrows i j ti tj); congruence.
  - intros Hkeys i j ti tj Hi Hj Heq.
    apply (Hkeys i j (unique_key (attrs ti))); rewrite list_lookup_fmap.
    + by rewrite Hi.
    + rewrite Hj. change (Some (unique_key (attrs tj)) = Some (unique_key (attrs ti))).
      by rewrite Heq.
Qed.

Lemma unique_together_holds_snoc (rows : list task) (query : task) :
  unique_together_holds rows →
  ¬ Exists (λ t, unique_key (attrs t) = unique_key (attrs query)) rows →
  unique_together_holds (rows ++ [query]).
Proof.
  rewrite !unique_together_holds_NoDup, fmap_app. intros Hrows Hfresh.
  apply NoDup_app. split; [done|]. split; [|apply NoDup_singleton].
  intros key (t & -> & Hin)%list_elem_of_fmap Hnew%list_elem_of_singleton.
  apply Hfresh, Exists_exists. by exists t.
Qed.

(** ** Properties of [Query.get_or_create_query_from_post] *)

Section Properties.
Variable valid_query_fields : list string.
Variable field_defaults : dict.
Variable Satellite_objects : list Satellite.
Variable Area_objects : list Area.

Local Abbreviation call :=
  (get_or_create_query_from_post valid_query_fields field_defaults
     Satellite_objects Area_objects).
Local Abbreviation lookups' := (lookups Satellite_objects Area_objects).

(** A row that [get_or_create_rows] returns, found or new, passes the
    filter it was given. *)
Lemma get_or_create_rows_matches (query_data : dict) (rows : list task)
    (query : task) (created : bool) :
  (get_or_create_rows field_defaults query_data rows).2 = Ok (query, created) →
  matches query_data query.
Proof.
  unfold get_or_create_rows.
  destruct (filter (matches query_data) rows) as [|found [|]] eqn:Hfilter.
  - case_decide; [done|]. cbn. intros [= <- <-].
    unfold matches. apply map_Forall_lookup. intros key v Hkey. cbn.
    unfold cls_init. by apply lookup_union_Some_l.
  - cbn. intros [= <- <-].
    assert (found ∈ filter (matches query_data) rows) as Hin
      by (rewrite Hfilter; by left).
    apply list_elem_of_filter in Hin. tauto.
  - done.
Qed.

(** Every returned row holds the filtered mapping, so each declared key of
    the normalized dictionary can be read off the row. *)
Lemma call_returns_normalized (w : world) (query : task) (created : bool) :
  (call w).2 = Ok (query, created) →
  ∃ s a, lookups' (form_data w) = Ok (s, a) ∧
         ∀ key, key ∈ valid_query_fields →
                ∀ v, normalized s a (form_data w) !! key = Some v →
                     attrs query !! key = Some v.
Proof.
  rewrite call_run.
  destruct (lookups' (form_data w)) as [[s a]|]; [|done].
  cbn. intros Hm%get_or_create_rows_matches.
  exists s, a. split; [done|]. intros key Hkey v Hv.
  unfold matches in Hm. rewrite map_Forall_lookup in Hm. apply Hm.
  rewrite dict_comprehension_lookup. by rewrite decide_True.
Qed.

(** C2. Product derivation: when the submitted platform resolves to a
    satellite and the submitted area to an area, the product is that
    satellite's [product_prefix] followed by that area's [area_id]: the call
    writes it into the dictionary and into the keyword arguments of the
    lookup and of the constructor however it ends, it returns the stored row
    that alone passes the filter when there is one, and every row it
    returns, found or created, holds it under [product]. [product] is a
    column: it is named in [unique_together]. *)
Theorem product_derivation (w : world) (p k : value) (s : Satellite) (a : Area) :
  "product" ∈ valid_query_fields →
  form_data w !! "platform" = Some p →
  Satellite_objects_get Satellite_objects p = Ok s →
  form_data w !! "area_id" = Some k →
  Area_objects_get Area_objects k = Ok a →
  form_data (call w).1 !! "product" = Some (VStr (product_prefix s +:+ area_id a)) ∧
  (∃ query_data,
      query_data_at_lookup valid_query_fields Satellite_objects Area_objects w
        = Ok query_data ∧
      query_data !! "product" = Some (VStr (product_prefix s +:+ area_id a)) ∧
      ∀ query, filter (matches query_data) (objects w) = [query] →
               (call w).2 = Ok (query, false)) ∧
  ∀ query created,
    (call w).2 = Ok (query, created) →
    attrs query !! "product" = Some (VStr (product_prefix s +:+ area_id a)).
Proof.
  intros Hfield Hp Hs Hk Ha.
  assert (lookups' (form_data w) = Ok (s, a)) as Hl
    by (apply lookups_Ok; by exists p, k).
  split; [|split].
  - rewrite call_run, Hl. cbn [fst form_data]. by rewrite normalized_lookup.
  - eexists. rewrite query_data_at_lookup_run, Hl. split; [done|]. split.
    + rewrite dict_comprehension_lookup, decide_True by done.
      by rewrite normalized_lookup.
    + intros query Hone. rewrite call_run, Hl. cbn [snd].
      unfold get_or_create_rows. by rewrite Hone.
  - intros query created (s' & a' & Hl' & Hread)%call_returns_normalized.
    rewrite Hl in Hl'. injection Hl' as <- <-.
    apply Hread; [done|]. by rewrite normalized_lookup.
Qed.

(** C3. Title and description defaulting: a row the call returns has the
    title "Custom Mosaic Query" when the submission has no [title] or an
    empty one and the submitted title otherwise, and the description "None"
    when the submission has no [description] or an empty one and the
    submitted description otherwise. Both are columns: they are named in
    [unique_together]. *)
Theorem title_description_defaulting (w : world) (query : task) (created : bool) :
  "title" ∈ valid_query_fields →
  "description" ∈ valid_query_fields →
  (call w).2 = Ok (query, created) →
  (form_data w !! "title" = None ∨ form_data w !! "title" = Some (VStr "") →
   attrs query !! "title" = Some (VStr "Custom Mosaic Query")) ∧
  (∀ v, form_data w !! "title" = Some v → v ≠ VStr "" →
        attrs query !! "title" = Some v) ∧
  (form_data w !! "description" = None ∨ form_data w !! "description" = Some (VStr "") →
   attrs query !! "description" = Some (VStr "None")) ∧
  (∀ v, form_data w !! "description" = Some v → v ≠ VStr "" →
        attrs query !! "description" = Some v).
Proof.
  intros Ht Hd (s & a & _ & Hread)%call_returns_normalized.
  pose proof (Hread "title" Ht _ (eq_trans (normalized_lookup s a _ "title") eq_refl))
    as Htitle.
  pose proof (Hread "description" Hd _
                (eq_trans (normalized_lookup s a _ "description") eq_refl)) as Hdesc.
  unfold or_default in Htitle, Hdesc.
  repeat split.
  - intros [Hnone|Hempty]; [by rewrite Hnone in Htitle|].
    rewrite Hempty in Htitle. by rewrite decide_True in Htitle.
  - intros v Hv Hne. rewrite Hv in Htitle. by rewrite decide_False in Htitle.
  - intros [Hnone|Hempty]; [by rewrite Hnone in Hdesc|].
    rewrite Hempty in Hdesc. by rewrite decide_True in Hdesc.
  - intros v Hv Hne. rewrite Hv in Hdesc. by rewrite decide_False in Hdesc.
Qed.

(** C8. Input aliasing: the call writes into the dictionary it was given.
    Once both lookups have succeeded, whatever the rest of the call does,
    the caller's dictionary holds the derived product under [product], the
    defaulted title and description under [title] and [description], present
    or not before, and every other key as it was. *)
Theorem form_data_mutated_in_place (w : world) (p k : value) (s : Satellite) (a : Area) :
  form_data w !! "platform" = Some p →
  Satellite_objects_get Satellite_objects p = Ok s →
  form_data w !! "area_id" = Some k →
  Area_objects_get Area_objects k = Ok a →
  let after := form_data (call w).1 in
  after !! "product" = Some (VStr (product_prefix s +:+ area_id a)) ∧
  after !! "title"
    = Some (or_default (VStr "Custom Mosaic Query") (form_data w !! "title")) ∧
  after !! "description"
    = Some (or_default (VStr "None") (form_data w !! "description")) ∧
  ∀ key, key ≠ "product" → key ≠ "title" → key ≠ "description" →
         after !! key = form_data w !! key.
Proof.
  intros Hp Hs Hk Ha.
  assert (lookups' (form_data w) = Ok (s, a)) as Hl
    by (apply lookups_Ok; by exists p, k).
  rewrite call_run, Hl. cbn [fst form_data].
  repeat split; try by rewrite normalized_lookup.
  intros key Hne1 Hne2 Hne3. rewrite normalized_lookup.
  by rewrite !decide_False.
Qed.

(** C9, as the code has it. The class method validates nothing itself: once
    both lookups have succeeded the keyword arguments of the lookup and of
    the constructor are exactly the restriction of the normalized dictionary
    to the declared field names (its keys are the keys common to both), and
    a declared name that the normalized dictionary lacks is in neither. A
    submission that lacks [query_type], [animated_product] or [compositor]
    is nevertheless never stored: no call returns a created row for it and
    the stored rows stay as they were. *)
Theorem no_validation_before_the_store (w : world) (p k : value) (s : Satellite)
    (a : Area) :
  form_data w !! "platform" = Some p →
  Satellite_objects_get Satellite_objects p = Ok s →
  form_data w !! "area_id" = Some k →
  Area_objects_get Area_objects k = Ok a →
  let query_data := restrict_to_fields valid_query_fields (normalized s a (form_data w)) in
  query_data_at_lookup valid_query_fields Satellite_objects Area_objects w
    = Ok query_data ∧
  dom query_data = dom (normalized s a (form_data w)) ∩ list_to_set valid_query_fields ∧
  (∀ key, normalized s a (form_data w) !! key = None → query_data !! key = None) ∧
  call w = get_or_create field_defaults query_data
             {| form_data := normalized s a (form_data w); objects := objects w |} ∧
  (Exists (λ key, form_data w !! key = None ∧ field_defaults !! key = None) foreign_keys →
   (∀ query, (call w).2 ≠ Ok (query, true)) ∧ objects (call w).1 = objects w).
Proof.
  intros Hp Hs Hk Ha query_data.
  assert (lookups' (form_data w) = Ok (s, a)) as Hl
    by (apply lookups_Ok; by exists p, k).
  subst query_data. rewrite <-dict_comprehension_restrict.
  split; [|split; [|split; [|split]]].
  - by rewrite query_data_at_lookup_run, Hl.
  - apply set_eq. intros key.
    rewrite elem_of_intersection, !elem_of_dom, elem_of_list_to_set,
      dict_comprehension_lookup.
    case_decide; [tauto|]. split; [by intros [? ?]|tauto].
  - intros key Hnone. rewrite dict_comprehension_lookup, Hnone. by case_decide.
  - by rewrite call_run, Hl, get_or_create_run.
  - intros Hlacks.
    assert (insert_refused (objects w)
              (cls_init field_defaults
                 (dict_comprehension valid_query_fields
                    (normalized s a (form_data w))))) as Hrefused.
    { left. unfold lacks_foreign_key.
      apply Exists_exists in Hlacks as (key & Hkey & Hform & Hdefault).
      apply Exists_exists. exists key. split; [done|]. left.
      unfold cls_init. apply lookup_union_None. split; [|done].
      rewrite dict_comprehension_lookup. case_decide; [|done].
      rewrite normalized_lookup.
      assert (key ≠ "description" ∧ key ≠ "title" ∧ key ≠ "product") as (? & ? & ?).
      { unfold foreign_keys in Hkey.
        repeat (apply elem_of_cons in Hkey as [->|Hkey]); [done..|].
        by apply elem_of_nil in Hkey. }
      by rewrite !decide_False. }
    rewrite call_run, Hl. cbn [fst snd objects]. unfold get_or_create_rows.
    destruct (filter _ (objects w)) as [|found [|]]; [|done..].
    by rewrite decide_True.
Qed.

(** C5. NotFound atomicity: for a submission carrying [platform] and
    [area_id], with satellite ids identifying satellites, if no satellite has
    the submitted platform or no area has the submitted area id then the call
    ends in [DoesNotExist] of [Satellite] or of [Area], raised to the caller,
    and leaves the stored rows and the submitted dictionary as they were. *)
Theorem not_found_leaves_state (w : world) (p k : value) :
  NoDup (satellite_id <$> Satellite_objects) →
  form_data w !! "platform" = Some p →
  form_data w !! "area_id" = Some k →
  Forall (λ s, VStr (satellite_id s) ≠ p) Satellite_objects ∨
  Forall (λ a, VStr (area_id a) ≠ k) Area_objects →
  ∃ m, (m = SatelliteModel ∨ m = AreaModel) ∧ call w = (w, Raise (DoesNotExist m)).
Proof.
  intros Hkey Hp Hk Hnone. rewrite call_run. unfold lookups. rewrite Hp, Hk.
  assert (∀ rows, Forall (λ s, VStr (satellite_id s) ≠ p) rows →
                  Satellite_objects_get rows p = Raise (DoesNotExist SatelliteModel))
    as Hsat by (intros rows; apply objects_get_none).
  assert (Forall (λ a, VStr (area_id a) ≠ k) Area_objects →
          Area_objects_get Area_objects k = Raise (DoesNotExist AreaModel))
    as Harea by apply objects_get_none.
  destruct Hnone as [Hnone|Hnone].
  { exists SatelliteModel. rewrite Hsat by done. eauto. }
  pose proof (filter_key_at_most_one (λ s, VStr (satellite_id s)) p Satellite_objects)
    as Hone.
  unfold Satellite_objects_get at 1, objects_get.
  destruct (filter _ Satellite_objects) as [|s [|s' found]].
  - exists SatelliteModel. eauto.
  - exists AreaModel. rewrite Harea by done. eauto.
  - exfalso. cbn in Hone. enough (2 ≤ 1) by lia. etrans; [|apply Hone]; [lia|].
    rewrite (list_fmap_compose satellite_id VStr).
    apply (NoDup_fmap_2 VStr), Hkey.
Qed.

(** C6. Multiple-match fatality: when two or more stored rows pass the
    filter built from the submission, the call ends in
    [MultipleObjectsReturned], which the handler (written for [DoesNotExist]
    alone) lets through to the caller, and the stored rows are as before. *)
Theorem multiple_matches_fatal (w : world) (query_data : dict) :
  query_data_at_lookup valid_query_fields Satellite_objects Area_objects w
    = Ok query_data →
  1 < length (filter (matches query_data) (objects w)) →
  (call w).2 = Raise (MultipleObjectsReturned QueryModel) ∧
  is_cls_DoesNotExist (MultipleObjectsReturned QueryModel) = false ∧
  objects (call w).1 = objects w.
Proof.
  rewrite query_data_at_lookup_run, call_run.
  destruct (lookups' (form_data w)) as [[s a]|]; [|done].
  intros [= <-] Hmany. cbn [fst snd objects]. unfold get_or_create_rows.
  destruct (filter _ (objects w)) as [|found [|]]; cbn in Hmany; [lia..|done].
Qed.

(** The last step on a table with a single matching row. *)
Lemma get_or_create_rows_found (query_data : dict) (rows : list task) (query : task) :
  filter (matches query_data) rows = [query] →
  get_or_create_rows field_defaults query_data rows = (rows, Ok (query, false)).
Proof. intros Hone. unfold get_or_create_rows. by rewrite Hone. Qed.

(** C7. Thirteen-field uniqueness invariant: a call of the class method on a
    table in which no two rows hold the same [unique_together] values leaves
    such a table, whatever it is given and however it ends; hence no table
    built from the empty one by calls of the class method has two rows that
    agree on all thirteen values. *)
Theorem unique_together_invariant :
  (∀ w, unique_together_holds (objects w) → unique_together_holds (objects (call w).1)) ∧
  (∀ rows, reachable valid_query_fields field_defaults rows → unique_together_holds rows).
Proof.
  assert (∀ fields defaults sats areas w,
    unique_together_holds (objects w) →
    unique_together_holds
      (objects (get_or_create_query_from_post fields defaults sats areas w).1)) as Hstep.
  { intros fields defaults sats areas w Hrows. rewrite call_run.
    destruct (lookups sats areas (form_data w)) as [[s a]|]; [|done].
    cbn [fst objects]. unfold get_or_create_rows.
    destruct (filter _ (objects w)) as [|found [|]]; [|done..].
    case_decide as Hrefused; [done|]. cbn [fst].
    apply unique_together_holds_snoc; [done|].
    intros Hexists. apply Hrefused. by right. }
  split; [apply Hstep|].
  induction 1 as [|sats areas fd rows _ IH].
  - intros i j ti tj Hi. by rewrite lookup_nil in Hi.
  - by apply Hstep.
Qed.

(** After the last step has returned a row, that row is the one stored row
    that passes the filter. *)
Lemma get_or_create_rows_single_match (query_data : dict) (rows : list task)
    (query : task) (created : bool) :
  (get_or_create_rows field_defaults query_data rows).2 = Ok (query, created) →
  filter (matches query_data) (get_or_create_rows field_defaults query_data rows).1
  = [query].
Proof.
  unfold get_or_create_rows.
  destruct (filter (matches query_data) rows) as [|found [|]] eqn:Hfilter.
  - case_decide as Hrefused; [done|]. cbn [fst snd]. intros [= <- <-].
    rewrite filter_app, Hfilter. cbn [app].
    rewrite filter_cons_True, filter_nil; [done|].
    apply map_Forall_lookup. intros key v Hkey. cbn [attrs].
    unfold cls_init. by apply lookup_union_Some_l.
  - cbn [fst snd]. by intros [= <- <-].
  - done.
Qed.


(** C4. Extraneous-key filtering: a key that is not a declared field name is
    in neither the keyword arguments of the lookup nor those of the
    constructor, so a created row has under it only what the class itself
    puts there; and two submissions that agree on every declared field name
    give the same keyword arguments, the same outcome (the same row, found or
    created, or the same exception) and the same table. [platform] and
    [area_id], which the product is derived from before the filter runs, are
    declared field names. *)
Theorem extraneous_keys_filtered (w1 w2 : world) :
  "platform" ∈ valid_query_fields →
  "area_id" ∈ valid_query_fields →
  objects w1 = objects w2 →
  (∀ key, key ∈ valid_query_fields → form_data w1 !! key = form_data w2 !! key) →
  (∀ query_data key,
      query_data_at_lookup valid_query_fields Satellite_objects Area_objects w1
        = Ok query_data →
      key ∉ valid_query_fields → query_data !! key = None) ∧
  (∀ query key,
      (call w1).2 = Ok (query, true) →
      key ∉ valid_query_fields → attrs query !! key = field_defaults !! key) ∧
  query_data_at_lookup valid_query_fields Satellite_objects Area_objects w1
    = query_data_at_lookup valid_query_fields Satellite_objects Area_objects w2 ∧
  (call w1).2 = (call w2).2 ∧
  objects (call w1).1 = objects (call w2).1.
Proof.
  intros Hplatform Harea Hrows Hagree.
  assert (lookups' (form_data w1) = lookups' (form_data w2)) as Hl.
  { unfold lookups. by rewrite (Hagree "platform"), (Hagree "area_id"). }
  assert (∀ s a, dict_comprehension valid_query_fields (normalized s a (form_data w1))
                 = dict_comprehension valid_query_fields (normalized s a (form_data w2)))
    as Hsame.
  { intros s a. apply map_eq. intros key. rewrite !dict_comprehension_lookup.
    case_decide as Hkey; [|done]. rewrite !normalized_lookup.
    repeat case_decide; subst; by rewrite ?Hagree. }
  split; [|split; [|split; [|split]]].
  - intros query_data key. rewrite query_data_at_lookup_run.
    destruct (lookups' (form_data w1)) as [[s a]|]; [|done].
    intros [= <-] Hkey. rewrite dict_comprehension_lookup. by rewrite decide_False.
  - intros query key. rewrite call_run.
    destruct (lookups' (form_data w1)) as [[s a]|]; [|done].
    cbn [snd]. unfold get_or_create_rows.
    destruct (filter _ (objects w1)) as [|found [|]]; [|done..].
    case_decide; [done|]. intros [= <-] Hkey. cbn [attrs]. unfold cls_init.
    rewrite lookup_union_r; [done|].
    rewrite dict_comprehension_lookup. by rewrite decide_False.
  - rewrite !query_data_at_lookup_run, <-Hl.
    destruct (lookups' (form_data w1)) as [[s a]|]; [|done]. by rewrite Hsame.
  - rewrite !call_run, <-Hl, <-Hrows.
    destruct (lookups' (form_data w1)) as [[s a]|]; [|done].
    cbn [snd]. by rewrite Hsame.
  - rewrite !call_run, <-Hl.
    destruct (lookups' (form_data w1)) as [[s a]|]; [|done].
    cbn [fst objects]. by rewrite Hsame, Hrows.
Qed.

End Properties.

(** ** Properties of [Query.get_fields_with_labels] *)

(** From any position of the enumeration: one item per remaining label, each
    the label with the value of the attribute named at the same position. *)
Lemma get_fields_with_labels_from_items (self : task) (field_names : list string)
    (labels : list value) (idx : nat) :
  idx + length labels ≤ length field_names →
  (∀ i name, idx ≤ i < idx + length labels → field_names !! i = Some name →
             is_Some (attrs self !! name)) →
  ∃ items,
    get_fields_with_labels_from self idx labels field_names = (items, None) ∧
    length items = length labels ∧
    ∀ i label, labels !! i = Some label →
      ∃ name v, field_names !! (idx + i) = Some name ∧
                attrs self !! name = Some v ∧
                items !! i = Some [label; v].
Proof.
  revert idx. induction labels as [|label labels IH]; intros idx Hlen Hattrs.
  { exists []. repeat split. intros i label Hi. by rewrite lookup_nil in Hi. }
  cbn [length] in Hlen, Hattrs. cbn [get_fields_with_labels_from].
  destruct (field_names !! idx) as [name|] eqn:Hname; cycle 1.
  { apply lookup_ge_None in Hname. lia. }
  destruct (Hattrs idx name ltac:(lia) Hname) as [v Hv].
  unfold getattr. rewrite Hv.
  destruct (IH (S idx)) as (items & -> & Hitems & Hnth).
  { lia. }
  { intros i name' Hi. apply Hattrs. lia. }
  exists ([label; v] :: items). repeat split.
  { cbn. by rewrite Hitems. }
  intros [|i] label' Hi.
  - injection Hi as <-. exists name, v. by rewrite Nat.add_0_r.
  - destruct (Hnth i label' Hi) as (name' & v' & Hname' & Hv' & Hitem).
    exists name', v'. by rewrite <-Nat.add_succ_comm.
Qed.

(** C10. Label pairing: for a row, a list of labels and a list of names of
    fields of that row at least as long, the generator runs to its end
    without raising and yields one item per label, in order, the i-th being
    the two-element list of the i-th label and the row's value for the i-th
    field name. *)
Theorem get_fields_with_labels_pairs (self : task) (labels : list value)
    (field_names : list string) :
  length labels ≤ length field_names →
  Forall (λ name, is_Some (attrs self !! name)) field_names →
  ∃ items,
    get_fields_with_labels self labels field_names = (items, None) ∧
    length items = length labels ∧
    ∀ i label, labels !! i = Some label →
      ∃ name v, field_names !! i = Some name ∧
                attrs self !! name = Some v ∧
                items !! i = Some [label; v].
Proof.
  intros Hlen Hfields. unfold get_fields_with_labels.
  apply (get_fields_with_labels_from_items self field_names labels 0); [done|].
  intros i name _ Hname. rewrite Forall_forall in Hfields.
  apply Hfields. by apply list_elem_of_lookup_2 with i.
Qed.

(** ** Concrete runs *)

(** A submission that names every column the store requires is stored with
    the derived product and the two defaults, and submitting it again finds
    that row. *)
Example scenario_first_call : (ex_call (ex_full_world [])).2 = Ok (ex_full_task, true).
Proof. vm_compute. reflexivity. Qed.

Example scenario_second_call :
  (ex_call (ex_call (ex_full_world [])).1).2 = Ok (ex_full_task, false).
Proof. vm_compute. reflexivity. Qed.

(** The submission of platform and area alone resolves, is normalized in the
    caller's dictionary, and is refused by the store for its empty
    ForeignKeys. *)
Example scenario_without_foreign_keys :
  ex_call (ex_world [])
  = ({| form_data := normalized LS7 NT ex_form_data; objects := [] |},
     Raise IntegrityError).
Proof. vm_compute. reflexivity. Qed.

(** A submission that names a column outside [unique_together] with a value
    the stored row does not have finds no row, and the insert is refused. *)
Example scenario_unique_conflict :
  (ex_call {| form_data := <["satellite_list" := VStr "LS7"]> ex_full_form_data;
              objects := [ex_full_task] |}).2
  = Raise IntegrityError.
Proof. vm_compute. reflexivity. Qed.



Lemma product_derivation_witness :
  "product" ∈ ex_fields ∧
  form_data (ex_full_world []) !! "platform" = Some (VStr "LS7") ∧
  Satellite_objects_get ex_satellites (VStr "LS7") = Ok LS7 ∧
  form_data (ex_full_world []) !! "area_id" = Some (VStr "NT") ∧
  Area_objects_get ex_areas (VStr "NT") = Ok NT ∧
  (ex_call (ex_full_world [])).2 = Ok (ex_full_task, true) ∧
  attrs ex_full_task !! "product" = Some (VStr "ls7_NT") ∧
  form_data (ex_call (ex_full_world [])).1 !! "product" = Some (VStr "ls7_NT") ∧
  (ex_call (ex_full_world [ex_median_task; ex_full_task])).2 = Ok (ex_full_task, false).
Proof.
  assert ("product" ∈ ex_fields) as Hfield by decided.
  assert ((ex_call (ex_full_world [])).2 = Ok (ex_full_task, true)) as Hfirst
    by (vm_compute; reflexivity).
  destruct (product_derivation ex_fields ex_defaults ex_satellites ex_areas
              (ex_full_world []) (VStr "LS7") (VStr "NT") LS7 NT Hfield
              eq_refl eq_refl eq_refl eq_refl) as (Hwritten & _ & Hreturned).
  destruct (product_derivation ex_fields ex_defaults ex_satellites ex_areas
              (ex_full_world [ex_median_task; ex_full_task])
              (VStr "LS7") (VStr "NT") LS7 NT Hfield
              eq_refl eq_refl eq_refl eq_refl)
    as (_ & (query_data & Hdata & _ & Hfound) & _).
  split; [exact Hfield|]. do 4 (split; [vm_compute; reflexivity|]).
  split; [exact Hfirst|]. split; [exact (Hreturned _ _ Hfirst)|].
  split; [exact Hwritten|].
  apply Hfound. vm_compute in Hdata. injection Hdata as <-.
  vm_compute. reflexivity.
Defined.

Lemma title_description_defaulting_witness :
  "title" ∈ ex_fields ∧
  "description" ∈ ex_fields ∧
  (ex_call (ex_full_world [])).2 = Ok (ex_full_task, true) ∧
  attrs ex_full_task !! "title" = Some (VStr "Custom Mosaic Query") ∧
  attrs ex_full_task !! "description" = Some (VStr "None") ∧
  (ex_call {| form_data := <["title" := VStr "Dry season"]> ex_full_form_data;
              objects := [] |}).2 = Ok (ex_titled_task, true) ∧
  attrs ex_titled_task !! "title" = Some (VStr "Dry season").
Proof.
  assert ("title" ∈ ex_fields) as Htitle by decided.
  assert ("description" ∈ ex_fields) as Hdesc by decided.
  assert ((ex_call (ex_full_world [])).2 = Ok (ex_full_task, true)) as Hfirst
    by (vm_compute; reflexivity).
  assert ((ex_call {| form_data := <["title" := VStr "Dry season"]> ex_full_form_data;
                      objects := [] |}).2 = Ok (ex_titled_task, true)) as Htitled
    by (vm_compute; reflexivity).
  destruct (title_description_defaulting ex_fields ex_defaults ex_satellites ex_areas
              (ex_full_world []) ex_full_task true Htitle Hdesc Hfirst)
    as (Hdefault & _ & Hnone & _).
  destruct (title_description_defaulting ex_fields ex_defaults ex_satellites ex_areas
              _ ex_titled_task true Htitle Hdesc Htitled) as (_ & Hsupplied & _).
  split; [exact Htitle|]. split; [exact Hdesc|]. split; [exact Hfirst|].
  split; [apply Hdefault; left; vm_compute; reflexivity|].
  split; [apply Hnone; left; vm_compute; reflexivity|].
  split; [exact Htitled|].
  apply Hsupplied; [vm_compute; reflexivity|discriminate].
Defined.

Lemma extraneous_keys_filtered_witness :
  "platform" ∈ ex_fields ∧
  "area_id" ∈ ex_fields ∧
  (∀ key, key ∈ ex_fields → ex_full_form_data !! key = ex_full_form_data_extra !! key) ∧
  (ex_call (ex_full_world [ex_median_task])).2
    = Ok ({| pk := 3; attrs := attrs ex_full_task |}, true) ∧
  (ex_call {| form_data := ex_full_form_data_extra; objects := [ex_median_task] |}).2
    = Ok ({| pk := 3; attrs := attrs ex_full_task |}, true).
Proof.
  assert ("platform" ∈ ex_fields) as Hplatform by decided.
  assert ("area_id" ∈ ex_fields) as Harea by decided.
  assert (∀ key, key ∈ ex_fields →
                 ex_full_form_data !! key = ex_full_form_data_extra !! key) as Hagree.
  { intros key Hkey. unfold ex_full_form_data_extra.
    rewrite !lookup_insert_ne; [done|intros <-; revert Hkey; decided..]. }
  assert ((ex_call (ex_full_world [ex_median_task])).2
          = Ok ({| pk := 3; attrs := attrs ex_full_task |}, true)) as Hfirst
    by (vm_compute; reflexivity).
  destruct (extraneous_keys_filtered ex_fields ex_defaults ex_satellites ex_areas
              (ex_full_world [ex_median_task])
              {| form_data := ex_full_form_data_extra; objects := [ex_median_task] |}
              Hplatform Harea eq_refl Hagree) as (_ & _ & _ & Hsame & _).
  split; [exact Hplatform|]. split; [exact Harea|]. split; [exact Hagree|].
  split; [exact Hfirst|]. rewrite <-Hsame. exact Hfirst.
Defined.

Lemma not_found_leaves_state_witness :
  NoDup (satellite_id <$> ex_satellites) ∧
  Forall (λ s, VStr (satellite_id s) ≠ VStr "LS5") ex_satellites ∧
  ∃ m, ex_call {| form_data := ex_form_data_unknown; objects := [ex_other_task] |}
       = ({| form_data := ex_form_data_unknown; objects := [ex_other_task] |},
          Raise (DoesNotExist m)).
Proof.
  assert (NoDup (satellite_id <$> ex_satellites)) as Hkey by decided.
  assert (Forall (λ s, VStr (satellite_id s) ≠ VStr "LS5") ex_satellites) as Hnone
    by decided.
  split; [exact Hkey|]. split; [exact Hnone|].
  destruct (not_found_leaves_state ex_fields ex_defaults ex_satellites ex_areas
              {| form_data := ex_form_data_unknown; objects := [ex_other_task] |}
              (VStr "LS5") (VStr "NT") Hkey eq_refl eq_refl (or_introl Hnone))
    as (m & _ & Hcall).
  exists m. exact Hcall.
Defined.

Lemma multiple_matches_fatal_witness :
  query_data_at_lookup ex_fields ex_satellites ex_areas (ex_world [ex_task; ex_twin_task])
    = Ok ex_query_data ∧
  1 < length (filter (matches ex_query_data) [ex_task; ex_twin_task]) ∧
  unique_key (attrs ex_task) ≠ unique_key (attrs ex_twin_task) ∧
  (ex_call (ex_world [ex_task; ex_twin_task])).2
    = Raise (MultipleObjectsReturned QueryModel) ∧
  objects (ex_call (ex_world [ex_task; ex_twin_task])).1 = [ex_task; ex_twin_task].
Proof.
  assert (query_data_at_lookup ex_fields ex_satellites ex_areas
            (ex_world [ex_task; ex_twin_task]) = Ok ex_query_data) as Hdata
    by (vm_compute; reflexivity).
  assert (1 < length (filter (matches ex_query_data) [ex_task; ex_twin_task])) as Hmany
    by (vm_compute; lia).
  destruct (multiple_matches_fatal ex_fields ex_defaults ex_satellites ex_areas
              (ex_world [ex_task; ex_twin_task]) ex_query_data Hdata Hmany)
    as (Hraise & _ & Hrows).
  split; [exact Hdata|]. split; [exact Hmany|]. split; [decided|].
  split; [exact Hraise|exact Hrows].
Defined.

Lemma form_data_mutated_in_place_witness :
  form_data (ex_world []) !! "product" = None ∧
  form_data (ex_world []) !! "title" = None ∧
  form_data (ex_call (ex_world [])).1 !! "product" = Some (VStr "ls7_NT") ∧
  form_data (ex_call (ex_world [])).1 !! "title" = Some (VStr "Custom Mosaic Query") ∧
  form_data (ex_call (ex_world [])).1 !! "description" = Some (VStr "None") ∧
  form_data (ex_call (ex_world [])).1 !! "csrfmiddlewaretoken" = Some (VStr "x").
Proof.
  destruct (form_data_mutated_in_place ex_fields ex_defaults ex_satellites ex_areas
              (ex_world []) (VStr "LS7") (VStr "NT") LS7 NT)
    as (Hproduct & Htitle & Hdesc & Hrest); try (vm_compute; reflexivity).
  do 2 (split; [vm_compute; reflexivity|]).
  split; [exact Hproduct|]. split; [exact Htitle|]. split; [exact Hdesc|].
  rewrite Hrest; [vm_compute; reflexivity|discriminate..].
Defined.

(** C9, as stated, fails: both lookups succeed and nothing is stored yet, but
    the submission has none of the three ForeignKeys and the call ends in the
    store's integrity error, with no row stored. *)
Lemma submission_without_foreign_keys_is_refused :
  form_data (ex_world []) !! "platform" = Some (VStr "LS7") ∧
  Satellite_objects_get ex_satellites (VStr "LS7") = Ok LS7 ∧
  form_data (ex_world []) !! "area_id" = Some (VStr "NT") ∧
  Area_objects_get ex_areas (VStr "NT") = Ok NT ∧
  form_data (ex_world []) !! "query_type" = None ∧
  "query_type" ∈ ex_fields ∧
  (ex_call (ex_world [])).2 = Raise IntegrityError ∧
  objects (ex_call (ex_world [])).1 = [].
Proof. repeat split; try (vm_compute; reflexivity). decided. Qed.

Lemma no_validation_before_the_store_witness :
  form_data (ex_world []) !! "time_start" = None ∧
  "time_start" ∈ ex_fields ∧
  query_data_at_lookup ex_fields ex_satellites ex_areas (ex_world [])
    = Ok (restrict_to_fields ex_fields (normalized LS7 NT ex_form_data)) ∧
  restrict_to_fields ex_fields (normalized LS7 NT ex_form_data) !! "time_start" = None ∧
  (∀ query, (ex_call (ex_world [])).2 ≠ Ok (query, true)) ∧
  objects (ex_call (ex_world [])).1 = [].
Proof.
  destruct (no_validation_before_the_store ex_fields ex_defaults ex_satellites ex_areas
              (ex_world []) (VStr "LS7") (VStr "NT") LS7 NT
              eq_refl eq_refl eq_refl eq_refl)
    as (Hdata & _ & Habsent & _ & Hrefused).
  split; [vm_compute; reflexivity|]. split; [decided|]. split; [exact Hdata|].
  split; [apply Habsent; vm_compute; reflexivity|].
  apply Hrefused. decided.
Defined.

Lemma get_fields_with_labels_pairs_witness :
  length [VStr "Platform"; VStr "Product"] ≤ length ["platform"; "product"; "title"] ∧
  Forall (λ name, is_Some (attrs ex_task !! name)) ["platform"; "product"; "title"] ∧
  ∃ items,
    get_fields_with_labels ex_task [VStr "Platform"; VStr "Product"]
      ["platform"; "product"; "title"] = (items, None) ∧
    items !! 1 = Some [VStr "Product"; VStr "ls7_NT"].
Proof.
  assert (Forall (λ name, is_Some (attrs ex_task !! name))
                 ["platform"; "product"; "title"]) as Hfields by decided.
  assert (length [VStr "Platform"; VStr "Product"]
          ≤ length ["platform"; "product"; "title"]) as Hlen by (cbn; lia).
  split; [exact Hlen|]. split; [exact Hfields|].
  destruct (get_fields_with_labels_pairs ex_task [VStr "Platform"; VStr "Product"]
              ["platform"; "product"; "title"] Hlen Hfields)
    as (items & Hrun & _ & Hnth).
  exists items. split; [exact Hrun|].
  destruct (Hnth 1 (VStr "Product") eq_refl) as (name & v & Hname & Hv & Hitem).
  injection Hname as <-. vm_compute in Hv. injection Hv as <-. exact Hitem.
Defined.

(** ** Further properties of [Query.get_fields_with_labels] *)

(** Whatever the generator does from a position, what it yields pairs the
    labels with the attributes named at the same positions, and where it
    stops tells why. *)
Lemma get_fields_with_labels_from_trace (self : task) (field_names : list string)
    (labels : list value) (idx : nat) (items : list (list value)) (stop : option exn) :
  get_fields_with_labels_from self idx labels field_names = (items, stop) →
  length items ≤ length labels ∧
  (∀ i item, items !! i = Some item →
     ∃ label name v, labels !! i = Some label ∧ field_names !! (idx + i) = Some name ∧
                     attrs self !! name = Some v ∧ item = [label; v]) ∧
  match stop with
  | None => length items = length labels
  | Some e =>
      length items < length labels ∧
      match field_names !! (idx + length items) with
      | None => e = IndexError
      | Some name => attrs self !! name = None ∧ e = AttributeError name
      end
  end.
Proof.
  revert idx items stop. induction labels as [|label labels IH]; intros idx items stop.
  { cbn. intros [= <- <-]. repeat split; [done|]. intros i item Hi.
    by rewrite lookup_nil in Hi. }
  cbn [get_fields_with_labels_from].
  destruct (field_names !! idx) as [name|] eqn:Hname; cycle 1.
  { intros [= <- <-]. cbn. rewrite Nat.add_0_r, Hname. repeat split; [lia| |lia].
    intros i item Hi. by rewrite lookup_nil in Hi. }
  unfold getattr. destruct (attrs self !! name) as [v|] eqn:Hv; cycle 1.
  { intros [= <- <-]. cbn. rewrite Nat.add_0_r, Hname. repeat split; [lia| |lia|done].
    intros i item Hi. by rewrite lookup_nil in Hi. }
  destruct (get_fields_with_labels_from self (S idx) labels field_names)
    as [items' stop'] eqn:Hrest.
  intros [= <- <-]. destruct (IH _ _ _ Hrest) as (Hlen & Hnth & Hstop).
  split; [cbn; lia|]. split.
  - intros [|i] item Hi.
    + injection Hi as <-. exists label, name, v. by rewrite Nat.add_0_r.
    + destruct (Hnth i item Hi) as (label' & name' & v' & Hl & Hn & Ha & ->).
      exists label', name', v'. by rewrite <-Nat.add_succ_comm.
  - destruct stop' as [e|]; cbn [length].
    + destruct Hstop as [Hlt Hwhy]. split; [lia|].
      by rewrite <-Nat.add_succ_comm.
    + by rewrite Hstop.
Qed.

(** X1. The items the generator yields are always the pairing of a prefix of
    the labels with the attributes that the field names at the same
    positions name; it ends without an exception exactly when it has paired
    every label, and otherwise at the first position whose field name is
    missing ([IndexError]) or names no attribute ([AttributeError]). *)
Theorem get_fields_with_labels_trace (self : task) (labels : list value)
    (field_names : list string) (items : list (list value)) (stop : option exn) :
  get_fields_with_labels self labels field_names = (items, stop) →
  length items ≤ length labels ∧
  (∀ i item, items !! i = Some item →
     ∃ label name v, labels !! i = Some label ∧ field_names !! i = Some name ∧
                     attrs self !! name = Some v ∧ item = [label; v]) ∧
  match stop with
  | None => length items = length labels
  | Some e =>
      length items < length labels ∧
      match field_names !! length items with
      | None => e = IndexError
      | Some name => attrs self !! name = None ∧ e = AttributeError name
      end
  end.
Proof.
  intros Hrun. apply (get_fields_with_labels_from_trace self field_names labels 0), Hrun.
Qed.

(** X2. With fewer field names than labels, all naming attributes of the
    row, the generator yields one item per field name and then ends in
    [IndexError]. *)
Theorem get_fields_with_labels_short_names (self : task) (labels : list value)
    (field_names : list string) :
  length field_names < length labels →
  Forall (λ name, is_Some (attrs self !! name)) field_names →
  ∃ items,
    get_fields_with_labels self labels field_names = (items, Some IndexError) ∧
    length items = length field_names.
Proof.
  intros Hshort Hfields.
  destruct (get_fields_with_labels self labels field_names) as [items stop] eqn:Hrun.
  destruct (get_fields_with_labels_from_trace self field_names labels 0 items stop Hrun)
    as (Hlen & Hnth & Hstop).
  assert (length items ≤ length field_names) as Hle.
  { destruct (decide (length items = 0)) as [->|Hpos]; [lia|].
    destruct (lookup_lt_is_Some_2 items (length items - 1)) as [item Hitem]; [lia|].
    destruct (Hnth _ _ Hitem) as (label & name & v & _ & Hname & _).
    apply lookup_lt_Some in Hname. cbn in Hname. lia. }
  destruct stop as [e|]; [|lia].
  destruct Hstop as [_ Hwhy]. cbn [Nat.add] in Hwhy.
  destruct (field_names !! length items) as [name|] eqn:Hname.
  - destruct Hwhy as [Hnone _]. rewrite Forall_forall in Hfields.
    destruct (Hfields name) as [v Hv]; [by apply list_elem_of_lookup_2 with (length items)|].
    congruence.
  - subst e. exists items. split; [done|].
    apply lookup_ge_None in Hname. lia.
Qed.

(** X3. Field names beyond the number of labels are never read: the
    generator behaves the same on the field names cut to the length of the
    labels. *)
Theorem get_fields_with_labels_ignores_surplus (self : task) (labels : list value)
    (field_names : list string) :
  get_fields_with_labels self labels field_names
  = get_fields_with_labels self labels (take (length labels) field_names).
Proof.
  unfold get_fields_with_labels.
  assert (∀ idx,
    get_fields_with_labels_from self idx labels field_names
    = get_fields_with_labels_from self idx labels
        (take (idx + length labels) field_names)) as Hgen; [|apply (Hgen 0)].
  induction labels as [|label labels IH]; intros idx; [done|].
  cbn [get_fields_with_labels_from length].
  rewrite lookup_take_lt by lia.
  destruct (field_names !! idx) as [name|]; [|done].
  destruct (getattr self name) as [v|]; [|done].
  by rewrite IH, Nat.add_succ_comm.
Qed.

(** ** Further properties of [Query.get_or_create_query_from_post] *)

(** Rows that all carry one key value in a table without repeated keys. *)
Lemma filter_determined_at_most_one {R K : Type} (key : R → K) (c : K) (P : R → Prop)
    `{!∀ r, Decision (P r)} (rows : list R) :
  NoDup (key <$> rows) → (∀ r, P r → key r = c) → length (filter P rows) ≤ 1.
Proof.
  intros Hkeys Hdet. induction rows as [|r rows IH]; [cbn; lia|].
  rewrite fmap_cons, NoDup_cons in Hkeys. destruct Hkeys as [Hr Hrows].
  destruct (decide (P r)) as [HP|HP].
  - rewrite filter_cons_True by done.
    replace (filter P rows) with (@nil R); [cbn; lia|].
    symmetry. apply (filter_nil_iff P), Forall_forall. intros r' Hin HP'.
    apply Hr. rewrite (Hdet r HP), <-(Hdet r' HP'). by apply list_elem_of_fmap_2.
  - rewrite filter_cons_False by done. by apply IH.
Qed.

Section More_properties.
Variable valid_query_fields : list string.
Variable field_defaults : dict.
Variable Satellite_objects : list Satellite.
Variable Area_objects : list Area.

Local Abbreviation call :=
  (get_or_create_query_from_post valid_query_fields field_defaults
     Satellite_objects Area_objects).
Local Abbreviation lookups' := (lookups Satellite_objects Area_objects).

(** X4. A submission without [platform] ends in [KeyError] for that key,
    whatever else it holds and whatever is stored, and nothing is changed. *)
Theorem missing_platform_raises_KeyError (w : world) :
  form_data w !! "platform" = None →
  call w = (w, Raise (KeyError "platform")).
Proof. intros Hp. rewrite call_run. unfold lookups. by rewrite Hp. Qed.

(** X5. A submission without [area_id] whose platform resolves ends in
    [KeyError] for [area_id], and nothing is changed. *)
Theorem missing_area_id_raises_KeyError (w : world) (p : value) (s : Satellite) :
  form_data w !! "platform" = Some p →
  Satellite_objects_get Satellite_objects p = Ok s →
  form_data w !! "area_id" = None →
  call w = (w, Raise (KeyError "area_id")).
Proof. intros Hp Hs Hk. rewrite call_run. unfold lookups. by rewrite Hp, Hs, Hk. Qed.

(** X6. The satellite is looked up before the area is even read: when the
    satellite lookup raises, the call ends in that exception and changes
    nothing, whatever the submission holds under [area_id]; in particular
    several satellites with the submitted id give [MultipleObjectsReturned]. *)
Theorem satellite_lookup_comes_first (w : world) (p : value) :
  form_data w !! "platform" = Some p →
  (∀ e, Satellite_objects_get Satellite_objects p = Raise e → call w = (w, Raise e)) ∧
  (1 < length (filter (λ s, VStr (satellite_id s) = p) Satellite_objects) →
   call w = (w, Raise (MultipleObjectsReturned SatelliteModel))).
Proof.
  intros Hp.
  assert (∀ e, Satellite_objects_get Satellite_objects p = Raise e →
               call w = (w, Raise e)) as Hraise.
  { intros e He. rewrite call_run. unfold lookups. by rewrite Hp, He. }
  split; [done|]. intros Hmany. apply Hraise.
  unfold Satellite_objects_get, objects_get.
  destruct (filter _ Satellite_objects) as [|s [|s' found]]; cbn in Hmany; [lia..|done].
Qed.

(** X7. For a submission without an [id], the table changes only by
    appending the created row: a call that raises leaves it as it was; a call
    that finds a row returns one that was stored and leaves the table as it
    was; a call that creates a row appends exactly that row, which was not
    stored before. (What [save] does with a submitted primary key is not
    modelled.) *)
Theorem table_changes_by_append_only (w : world) :
  form_data w !! "id" = None →
  (∀ e, (call w).2 = Raise e → objects (call w).1 = objects w) ∧
  (∀ query, (call w).2 = Ok (query, false) →
            objects (call w).1 = objects w ∧ query ∈ objects w) ∧
  (∀ query, (call w).2 = Ok (query, true) →
            objects (call w).1 = objects w ++ [query] ∧ query ∉ objects w).
Proof.
  intros _. rewrite call_run.
  destruct (lookups' (form_data w)) as [[s a]|]; [|done].
  cbn [fst snd objects]. unfold get_or_create_rows.
  destruct (filter _ (objects w)) as [|found [|]] eqn:Hfilter.
  - case_decide as Hrefused; [done|]. cbn [fst snd].
    split; [done|]. split; [done|]. intros query [= <-]. split; [done|].
    intros Hin. apply (filter_nil_not_elem_of _ _ _ Hfilter) in Hin; [done|].
    apply map_Forall_lookup. intros key v Hkey. cbn [attrs].
    unfold cls_init. by apply lookup_union_Some_l.
  - cbn [fst snd]. split; [done|]. split; [|done].
    intros query [= <-]. split; [done|].
    assert (found ∈ filter (matches (dict_comprehension valid_query_fields
                                       (normalized s a (form_data w)))) (objects w))
      as Hin by (rewrite Hfilter; by left).
    apply list_elem_of_filter in Hin. tauto.
  - done.
Qed.

(** X8. Repeating a call that returned a row, on the state it left, returns
    the same row with [created] false and changes nothing: neither the stored
    rows nor the dictionary. This holds whether the first call found the row
    or created it. *)
Theorem repeated_call_finds_returned_row (w : world) (query : task) (created : bool) :
  (call w).2 = Ok (query, created) →
  call (call w).1 = ((call w).1, Ok (query, false)).
Proof.
  rewrite (call_run _ _ _ _ w).
  destruct (lookups' (form_data w)) as [[s a]|] eqn:Hl; [|done].
  cbn [fst snd]. intros Hone%get_or_create_rows_single_match.
  rewrite call_run. cbn [form_data objects].
  rewrite lookups_normalized, Hl, normalized_idem. cbn zeta.
  by rewrite (get_or_create_rows_found _ _ _ query).
Qed.

(** X9. A submitted [product] never counts: the derived product overwrites
    it, so the outcome and the stored rows are the same as without it, and so
    is the dictionary afterwards when the call returns a row. *)
Theorem submitted_product_is_overwritten (fd : dict) (v : value) (rows : list task) :
  (call {| form_data := <["product" := v]> fd; objects := rows |}).2
  = (call {| form_data := fd; objects := rows |}).2 ∧
  objects (call {| form_data := <["product" := v]> fd; objects := rows |}).1
  = objects (call {| form_data := fd; objects := rows |}).1 ∧
  (∀ query created,
     (call {| form_data := fd; objects := rows |}).2 = Ok (query, created) →
     call {| form_data := <["product" := v]> fd; objects := rows |}
     = call {| form_data := fd; objects := rows |}).
Proof.
  assert (lookups' (<["product" := v]> fd) = lookups' fd) as Hl.
  { unfold lookups. by rewrite !lookup_insert_ne by done. }
  assert (∀ s a, normalized s a (<["product" := v]> fd) = normalized s a fd) as Hn.
  { intros s a. unfold normalized.
    by rewrite !lookup_insert_ne, insert_insert_eq by done. }
  rewrite !call_run. cbn [form_data objects]. rewrite Hl.
  destruct (lookups' fd) as [[s a]|]; [|done].
  rewrite Hn. done.
Qed.

(** X10. What a created row holds: under every declared field name other
    than the primary key [id], the value the normalized submission has for it
    (so any submitted column, whichever class declares it, is stored as
    submitted) and the default of the class where the submission has none. *)
Theorem created_row_columns (w : world) (query : task) (s : Satellite) (a : Area)
    (p k : value) :
  form_data w !! "platform" = Some p →
  Satellite_objects_get Satellite_objects p = Ok s →
  form_data w !! "area_id" = Some k →
  Area_objects_get Area_objects k = Ok a →
  (call w).2 = Ok (query, true) →
  ∀ key, key ∈ valid_query_fields → key ≠ "id" →
    attrs query !! key
    = match normalized s a (form_data w) !! key with
      | Some v => Some v
      | None => field_defaults !! key
      end.
Proof.
  intros Hp Hs Hk Ha.
  assert (lookups' (form_data w) = Ok (s, a)) as Hl
    by (apply lookups_Ok; by exists p, k).
  rewrite call_run, Hl. cbn [snd]. unfold get_or_create_rows.
  destruct (filter _ (objects w)) as [|found [|]]; [|done..].
  case_decide; [done|]. intros [= <-] key Hkey _. cbn [attrs]. unfold cls_init.
  rewrite lookup_union, dict_comprehension_lookup, decide_True by done.
  by destruct (normalized s a (form_data w) !! key), (field_defaults !! key).
Qed.

(** X12. The uniqueness constraint rules out several matches: when the
    stored rows satisfy it and the keyword arguments name every field of
    [unique_together], the lookup finds at most one row and the call does not
    end in [MultipleObjectsReturned]. *)
Theorem unique_together_excludes_multiple (w : world) (query_data : dict) :
  unique_together_holds (objects w) →
  query_data_at_lookup valid_query_fields Satellite_objects Area_objects w
    = Ok query_data →
  Forall (λ key, is_Some (query_data !! key)) unique_together →
  length (filter (matches query_data) (objects w)) ≤ 1 ∧
  (call w).2 ≠ Raise (MultipleObjectsReturned QueryModel).
Proof.
  intros Hrows Hdata Hnamed.
  assert (length (filter (matches query_data) (objects w)) ≤ 1) as Hone.
  { apply unique_together_holds_NoDup in Hrows.
    apply (filter_determined_at_most_one (λ t, unique_key (attrs t))
             (unique_key query_data)); [done|].
    intros t Ht. unfold unique_key. apply list_fmap_ext.
    intros i key Hkey. rewrite Forall_forall in Hnamed.
    destruct (Hnamed key) as [v Hv]; [by apply list_elem_of_lookup_2 with i|].
    unfold matches in Ht. rewrite map_Forall_lookup in Ht.
    by rewrite Hv, (Ht key v Hv). }
  split; [done|].
  revert Hdata. rewrite query_data_at_lookup_run, call_run.
  destruct (lookups' (form_data w)) as [[s a]|]; [|done].
  intros [= Hdata]. cbn [snd]. rewrite Hdata. unfold get_or_create_rows.
  destruct (filter (matches query_data) (objects w)) as [|found [|]];
    [case_decide; done|done|cbn in Hone; lia].
Qed.

End More_properties.

(** ** Properties across field lists and across calls *)

Lemma objects_get_Ok_elem {R : Type} (m : model_class) (P : R → Prop)
    `{!∀ r, Decision (P r)} (rows : list R) (r : R) :
  objects_get m P rows = Ok r → r ∈ rows ∧ P r.
Proof.
  unfold objects_get. destruct (filter P rows) as [|r' [|]] eqn:Hfilter; [done| |done].
  intros [= <-].
  assert (r' ∈ filter P rows) as Hin by (rewrite Hfilter; by left).
  apply list_elem_of_filter in Hin. tauto.
Qed.

Lemma or_default_not_empty (dflt : value) (o : option value) :
  dflt ≠ VStr "" → or_default dflt o ≠ VStr "".
Proof. intros Hd. unfold or_default. destruct o as [v|]; [by case_decide|done]. Qed.

(** X15. Only the set of declared field names counts: two field lists with
    the same members, in whatever order and with whatever repetitions, give
    the same call. *)
Theorem field_order_is_irrelevant (fields1 fields2 : list string) (defaults : dict)
    (sats : list Satellite) (areas : list Area) (w : world) :
  (∀ key, key ∈ fields1 ↔ key ∈ fields2) →
  get_or_create_query_from_post fields1 defaults sats areas w
  = get_or_create_query_from_post fields2 defaults sats areas w.
Proof.
  intros Hsame. rewrite !call_run.
  destruct (lookups sats areas (form_data w)) as [[s a]|]; [|done].
  replace (dict_comprehension fields1 (normalized s a (form_data w)))
    with (dict_comprehension fields2 (normalized s a (form_data w))); [done|].
  apply map_eq. intros key. rewrite !dict_comprehension_lookup.
  destruct (decide (key ∈ fields1)) as [Hin|Hnin].
  - by rewrite decide_True by by apply Hsame.
  - by rewrite decide_False by by rewrite <-Hsame.
Qed.

(** X16. In a table built from the empty one by calls of the class method,
    every row has a title and a description, neither of them the empty
    string, and a string as product, provided the three are declared field
    names. *)
Theorem stored_rows_are_normalized (fields : list string) (defaults : dict)
    (rows : list task) :
  "title" ∈ fields → "description" ∈ fields → "product" ∈ fields →
  reachable fields defaults rows →
  Forall (λ t, (∃ v, attrs t !! "title" = Some v ∧ v ≠ VStr "") ∧
               (∃ v, attrs t !! "description" = Some v ∧ v ≠ VStr "") ∧
               (∃ s, attrs t !! "product" = Some (VStr s))) rows.
Proof.
  intros Htitle Hdesc Hproduct.
  induction 1 as [|sats areas fd rows _ IH]; [by apply Forall_nil|].
  rewrite call_run. cbn [form_data objects].
  destruct (lookups sats areas fd) as [[s a]|]; [|done].
  cbn [fst objects]. unfold get_or_create_rows.
  destruct (filter _ rows) as [|found [|]]; [|done..].
  case_decide; [done|]. cbn [fst].
  apply Forall_app. split; [done|]. apply Forall_singleton. cbn [attrs].
  unfold cls_init.
  split; [|split]; eexists;
    (try split; [apply lookup_union_Some_l;
                 rewrite dict_comprehension_lookup, decide_True by done;
                 rewrite normalized_lookup; reflexivity|..]).
  - by apply or_default_not_empty.
  - by apply or_default_not_empty.
Qed.

(** X17. A call returns a row only for a submission whose [platform] and
    [area_id] are strings, the platform being the id of a stored satellite
    and the area id that of a stored area; the product of the returned row is
    then that satellite's prefix followed by the submitted area id. *)
Theorem returned_product_from_submitted_ids (fields : list string) (defaults : dict)
    (sats : list Satellite) (areas : list Area) (w : world) (query : task)
    (created : bool) :
  "product" ∈ fields →
  (get_or_create_query_from_post fields defaults sats areas w).2 = Ok (query, created) →
  ∃ s area,
    s ∈ sats ∧ {| area_id := area |} ∈ areas ∧
    form_data w !! "platform" = Some (VStr (satellite_id s)) ∧
    form_data w !! "area_id" = Some (VStr area) ∧
    attrs query !! "product" = Some (VStr (product_prefix s +:+ area)).
Proof.
  intros Hproduct Hcall.
  destruct (call_returns_normalized _ _ _ _ _ _ _ Hcall) as (s & a & Hl & Hread).
  apply lookups_Ok in Hl as (p & k & Hp & Hs & Hk & Ha).
  apply objects_get_Ok_elem in Hs as [Hs <-].
  apply objects_get_Ok_elem in Ha as [Ha <-].
  exists s, (area_id a). destruct a as [area]. cbn [area_id] in *.
  repeat split; try done.
  apply Hread; [done|]. by rewrite normalized_lookup.
Qed.

(** ** Concrete runs of the further properties *)

Lemma get_fields_with_labels_trace_witness :
  get_fields_with_labels ex_task [VStr "Platform"; VStr "Product"; VStr "Owner"]
    ["platform"; "owner"]
  = ([[VStr "Platform"; VStr "LS7"]], Some (AttributeError "owner")) ∧
  attrs ex_task !! "owner" = None.
Proof.
  assert (get_fields_with_labels ex_task [VStr "Platform"; VStr "Product"; VStr "Owner"]
            ["platform"; "owner"]
          = ([[VStr "Platform"; VStr "LS7"]], Some (AttributeError "owner"))) as Hrun
    by (vm_compute; reflexivity).
  split; [exact Hrun|].
  destruct (get_fields_with_labels_trace _ _ _ _ _ Hrun) as (_ & _ & _ & Hwhy).
  cbn in Hwhy. exact (proj1 Hwhy).
Defined.

Lemma get_fields_with_labels_short_names_witness :
  length ["platform"; "product"] < length [VStr "Platform"; VStr "Product"; VStr "Title"] ∧
  Forall (λ name, is_Some (attrs ex_task !! name)) ["platform"; "product"] ∧
  ∃ items,
    get_fields_with_labels ex_task [VStr "Platform"; VStr "Product"; VStr "Title"]
      ["platform"; "product"] = (items, Some IndexError) ∧
    length items = 2.
Proof.
  assert (length ["platform"; "product"]
          < length [VStr "Platform"; VStr "Product"; VStr "Title"]) as Hshort
    by (cbn; lia).
  assert (Forall (λ name, is_Some (attrs ex_task !! name)) ["platform"; "product"])
    as Hfields by decided.
  split; [exact Hshort|]. split; [exact Hfields|].
  exact (get_fields_with_labels_short_names ex_task
           [VStr "Platform"; VStr "Product"; VStr "Title"] ["platform"; "product"]
           Hshort Hfields).
Defined.

Lemma missing_platform_raises_KeyError_witness :
  ex_call {| form_data := {[ "area_id" := VStr "NT" ]}; objects := [ex_task] |}
  = ({| form_data := {[ "area_id" := VStr "NT" ]}; objects := [ex_task] |},
     Raise (KeyError "platform")).
Proof.
  apply (missing_platform_raises_KeyError ex_fields ex_defaults ex_satellites ex_areas).
  vm_compute. reflexivity.
Defined.

Lemma missing_area_id_raises_KeyError_witness :
  ex_call {| form_data := {[ "platform" := VStr "LS8" ]}; objects := [ex_task] |}
  = ({| form_data := {[ "platform" := VStr "LS8" ]}; objects := [ex_task] |},
     Raise (KeyError "area_id")).
Proof.
  apply (missing_area_id_raises_KeyError ex_fields ex_defaults ex_satellites ex_areas
           _ (VStr "LS8") LS8); vm_compute; reflexivity.
Defined.

Lemma satellite_lookup_comes_first_witness :
  get_or_create_query_from_post ex_fields ex_defaults [LS7; LS8; LS7] ex_areas
    {| form_data := {[ "platform" := VStr "LS7" ]}; objects := [] |}
  = ({| form_data := {[ "platform" := VStr "LS7" ]}; objects := [] |},
     Raise (MultipleObjectsReturned SatelliteModel)).
Proof.
  apply (satellite_lookup_comes_first ex_fields ex_defaults [LS7; LS8; LS7] ex_areas
           _ (VStr "LS7")).
  - vm_compute. reflexivity.
  - vm_compute. lia.
Defined.

Lemma table_changes_by_append_only_witness :
  form_data (ex_full_world [ex_median_task]) !! "id" = None ∧
  (ex_call (ex_full_world [ex_median_task])).2
    = Ok ({| pk := 3; attrs := attrs ex_full_task |}, true) ∧
  objects (ex_call (ex_full_world [ex_median_task])).1
    = [ex_median_task] ++ [{| pk := 3; attrs := attrs ex_full_task |}].
Proof.
  assert ((ex_call (ex_full_world [ex_median_task])).2
          = Ok ({| pk := 3; attrs := attrs ex_full_task |}, true)) as Hfirst
    by (vm_compute; reflexivity).
  destruct (table_changes_by_append_only ex_fields ex_defaults ex_satellites ex_areas
              (ex_full_world [ex_median_task]) eq_refl) as (_ & _ & Hcreated).
  split; [reflexivity|]. split; [exact Hfirst|].
  exact (proj1 (Hcreated _ Hfirst)).
Defined.

Lemma repeated_call_finds_returned_row_witness :
  (ex_call (ex_full_world [ex_median_task; ex_full_task])).2 = Ok (ex_full_task, false) ∧
  (ex_call (ex_call (ex_full_world [ex_median_task; ex_full_task])).1).2
    = Ok (ex_full_task, false) ∧
  (ex_call (ex_call (ex_full_world [ex_median_task; ex_full_task])).1).1
  = (ex_call (ex_full_world [ex_median_task; ex_full_task])).1.
Proof.
  assert ((ex_call (ex_full_world [ex_median_task; ex_full_task])).2
          = Ok (ex_full_task, false)) as Hfirst by (vm_compute; reflexivity).
  split; [exact Hfirst|].
  rewrite (repeated_call_finds_returned_row ex_fields ex_defaults ex_satellites
             ex_areas _ _ _ Hfirst).
  split; reflexivity.
Defined.

Lemma created_row_columns_witness :
  (ex_call (ex_full_world [])).2 = Ok (ex_full_task, true) ∧
  attrs ex_full_task !! "time_start" = Some (VStr "2015-01-01") ∧
  attrs ex_full_task !! "animation_path" = Some (VStr "None").
Proof.
  assert ((ex_call (ex_full_world [])).2 = Ok (ex_full_task, true)) as Hfirst
    by (vm_compute; reflexivity).
  pose proof (created_row_columns ex_fields ex_defaults ex_satellites ex_areas
                (ex_full_world []) ex_full_task LS7 NT (VStr "LS7") (VStr "NT")
                eq_refl eq_refl eq_refl eq_refl Hfirst) as Hcolumns.
  split; [exact Hfirst|]. split.
  - rewrite (Hcolumns "time_start") by (decided || discriminate).
    vm_compute. reflexivity.
  - rewrite (Hcolumns "animation_path") by (decided || discriminate).
    vm_compute. reflexivity.
Defined.

Lemma unique_together_excludes_multiple_witness :
  unique_together_holds [ex_full_task; ex_median_task] ∧
  Forall (λ key, is_Some (attrs ex_full_task !! key)) unique_together ∧
  (ex_call {| form_data := ex_full_form_data;
              objects := [ex_full_task; ex_median_task] |}).2
  = Ok (ex_full_task, false).
Proof.
  assert (unique_together_holds [ex_full_task; ex_median_task]) as Hrows
    by (apply unique_together_holds_NoDup; decided).
  assert (Forall (λ key, is_Some (attrs ex_full_task !! key)) unique_together)
    as Hcolumns by decided.
  split; [exact Hrows|]. split; [exact Hcolumns|].
  destruct (unique_together_excludes_multiple ex_fields ex_defaults ex_satellites
              ex_areas
              {| form_data := ex_full_form_data;
                 objects := [ex_full_task; ex_median_task] |}
              (dict_comprehension ex_fields (normalized LS7 NT ex_full_form_data))
              Hrows) as [Hone Hnot].
  - vm_compute. reflexivity.
  - decided.
  - vm_compute. reflexivity.
Defined.

Lemma field_order_is_irrelevant_witness :
  get_or_create_query_from_post ex_fields ex_defaults ex_satellites ex_areas
    (ex_world [ex_other_task])
  = get_or_create_query_from_post (reverse ex_fields ++ ["title"]) ex_defaults
      ex_satellites ex_areas (ex_world [ex_other_task]).
Proof.
  apply field_order_is_irrelevant.
  intros key. rewrite elem_of_app, elem_of_reverse, list_elem_of_singleton.
  split; [tauto|]. intros [Hin| ->]; [done|decided].
Defined.

Lemma stored_rows_are_normalized_witness :
  reachable ex_fields ex_defaults [ex_full_task] ∧
  ∃ v, attrs ex_full_task !! "title" = Some v ∧ v ≠ VStr "".
Proof.
  assert (reachable ex_fields ex_defaults [ex_full_task]) as Hreach.
  { replace [ex_full_task] with (objects (ex_call (ex_full_world [])).1)
      by (vm_compute; reflexivity).
    apply reachable_call, reachable_empty. }
  split; [exact Hreach|].
  assert ("title" ∈ ex_fields) as Htitle by decided.
  assert ("description" ∈ ex_fields) as Hdesc by decided.
  assert ("product" ∈ ex_fields) as Hproduct by decided.
  pose proof (stored_rows_are_normalized ex_fields ex_defaults [ex_full_task]
                Htitle Hdesc Hproduct Hreach) as Hrows.
  rewrite Forall_singleton in Hrows. exact (proj1 Hrows).
Defined.

Lemma returned_product_from_submitted_ids_witness :
  (ex_call (ex_full_world [])).2 = Ok (ex_full_task, true) ∧
  ∃ s area,
    s ∈ ex_satellites ∧
    form_data (ex_full_world []) !! "area_id" = Some (VStr area) ∧
    attrs ex_full_task !! "product" = Some (VStr (product_prefix s +:+ area)).
Proof.
  assert ("product" ∈ ex_fields) as Hproduct by decided.
  assert ((ex_call (ex_full_world [])).2 = Ok (ex_full_task, true)) as Hfirst
    by (vm_compute; reflexivity).
  destruct (returned_product_from_submitted_ids ex_fields ex_defaults ex_satellites
              ex_areas (ex_full_world []) ex_full_task true Hproduct Hfirst)
    as (s & area & Hs & _ & _ & Harea & Hprod).
  split; [exact Hfirst|].
  exists s, area. split; [exact Hs|]. split; [exact Harea|exact Hprod].
Defined.
